(** * filtro_carpetas.js: the cascading "numeral -> carpeta" selector

    The file is served to the admin form of a page that may hold a parent
    select [#id_numeral] and a dependent select [#id_carpeta].

    - [Shipped] holds the text of the file, line by line, and classifies each
      line lexically (line comment, blank, code).
    - The rest models the page the script is loaded on: the two controls, the
      network, the console, the events that reach the page, and the effect of
      evaluating the program text of the file on it. *)

From Stdlib Require Import String Ascii List Bool Arith Lia.
Import ListNotations.
Local Open Scope string_scope.
Local Open Scope list_scope.

(** ** Small string helpers *)

(** The double-quote character, for literals that contain it. *)
Definition dq : string := String (ascii_of_nat 34) EmptyString.

(** [String.prototype.split] with a one-character separator. *)
Fixpoint split (sep : ascii) (s : string) : list string :=
  match s with
  | EmptyString => [EmptyString]
  | String c rest =>
      if Ascii.eqb c sep then EmptyString :: split sep rest
      else match split sep rest with
           | seg :: segs => String c seg :: segs
           | [] => [String c EmptyString]
           end
  end.

(** [window.location.pathname.split('/')[2]]; [None] is [undefined]. *)
Definition app_tag (pathname : string) : option string :=
  nth_error (split "/"%char pathname) 2.

(** Occurrences of a character in a string. *)
Fixpoint count_char (c : ascii) (s : string) : nat :=
  match s with
  | EmptyString => 0
  | String a rest => (if Ascii.eqb a c then 1 else 0) + count_char c rest
  end.

(** ** The page *)

(** An [<option>] element of the dependent select.  Every option the admin
    form renders carries a [value] attribute; [data-numeral] may be
    missing. *)
Record option_el := {
  value : string;
  text : string;
  data_numeral : option string
}.

(** [#id_carpeta], a single-selection [<select>].  [selectedIndex] is [None]
    for the DOM's [-1]. *)
Record select_el := {
  options : list option_el;
  disabled : bool;
  data_selected : option string;
  selectedIndex : option nat
}.

(** Functions of the script that can be bound to an event.  The program text
    of the file declares none. *)
Inductive handler : Set := .

(** [#id_numeral]: its current value and the handlers bound to [change]. *)
Record numeral_el := {
  nval : string;
  on_change : list handler
}.

(** Settings of one [$.ajax] call.  [data] values may be [undefined]. *)
Record ajax_request := {
  url : string;
  data : list (string * option string);
  dataType : string
}.

(** What a script may keep of the dependent select's served options. *)
Record saved_option := {
  s_value : string;
  s_text : string;
  s_numeral : option string
}.

Record closure := {
  todasLasCarpetas : list option_el;
  carpetasOriginales : list saved_option
}.

Record page := {
  numeral : option numeral_el;      (* None: no #id_numeral on the page *)
  carpeta : option select_el;       (* None: no #id_carpeta on the page *)
  pathname : string;                (* window.location.pathname *)
  saved : option closure;
  sent : list ajax_request;         (* every request issued so far *)
  inflight : list ajax_request;     (* requests awaiting their response *)
  console : list string;            (* console.error lines *)
  uncaught : list string            (* exceptions that reached the page *)
}.

(** The server-rendered document, before any script has run. *)
Record document := {
  d_numeral : option string;
  d_carpeta : option select_el;
  d_pathname : string
}.

(** The parent control as served: a value and no handler. *)
Definition bare (v : string) : numeral_el := {| nval := v; on_change := [] |}.

Definition fresh (d : document) : page :=
  {| numeral := option_map bare (d_numeral d);
     carpeta := d_carpeta d;
     pathname := d_pathname d;
     saved := None;
     sent := [];
     inflight := [];
     console := [];
     uncaught := [] |}.

(** Field updates. *)
Definition with_numeral (n : option numeral_el) (p : page) : page :=
  {| numeral := n; carpeta := carpeta p; pathname := pathname p;
     saved := saved p; sent := sent p; inflight := inflight p;
     console := console p; uncaught := uncaught p |}.

Definition with_network (s i : list ajax_request) (p : page) : page :=
  {| numeral := numeral p; carpeta := carpeta p; pathname := pathname p;
     saved := saved p; sent := s; inflight := i;
     console := console p; uncaught := uncaught p |}.

Definition with_uncaught (l : list string) (p : page) : page :=
  {| numeral := numeral p; carpeta := carpeta p; pathname := pathname p;
     saved := saved p; sent := sent p; inflight := inflight p;
     console := console p; uncaught := l |}.

(** ** Script effects: page state plus exceptions *)

Inductive completion (A : Type) :=
| Normal (a : A)
| Throw (e : string).
Arguments Normal {A} a.
Arguments Throw {A} e.

Definition js (A : Type) : Type := page -> completion A * page.

Definition ret {A} (a : A) : js A := fun p => (Normal a, p).

Definition bind {A B} (m : js A) (k : A -> js B) : js B :=
  fun p => match m p with
           | (Normal a, p') => k a p'
           | (Throw e, p') => (Throw e, p')
           end.

Definition throw {A} (e : string) : js A := fun p => (Throw e, p).

Declare Scope js_scope.
Delimit Scope js_scope with js.
Notation "x <- m ;; k" := (bind m (fun x => k))
  (at level 61, m at next level, right associativity) : js_scope.
Notation "m ;; k" := (bind m (fun _ => k))
  (at level 61, right associativity) : js_scope.
Local Open Scope js_scope.

(** Effects in sequence, one per element. *)
Fixpoint each {A} (l : list A) (f : A -> js unit) : js unit :=
  match l with
  | [] => ret tt
  | x :: rest => f x ;; each rest f
  end.

(** The state a piece of script leaves behind; an exception that escapes it
    is reported on the page ([window.onerror]) and the page lives on. *)
Definition run_handler (m : js unit) (p : page) : page :=
  match m p with
  | (Normal _, p') => p'
  | (Throw e, p') => with_uncaught (uncaught p' ++ [e]) p'
  end.

(** ** The file as served *)

Module Shipped.

(** The 81 lines of [static/admin/js/filtro_carpetas.js], in order, without
    their line terminators. *)
Definition lines : list string := [
  "// (function($) {";
  "//     'use strict';";
  "    ";
  "//     $(document).ready(function() {";
  "//         // Obtener los campos";
  "//         var numeralField = $('#id_numeral');";
  "//         var carpetaField = $('#id_carpeta');";
  "        ";
  "//         if (numeralField.length && carpetaField.length) {";
  "//             // Guardar todas las opciones originales de carpetas";
  "//             var todasLasCarpetas = carpetaField.html();";
  "//             var carpetasOriginales = [];";
  "            ";
  "//             carpetaField.find('option').each(function() {";
  "//                 var option = $(this);";
  "//                 carpetasOriginales.push({";
  "//                     value: option.val(),";
  "//                     text: option.text(),";
  "//                     numeral: option.attr('data-numeral')";
  "//                 });";
  "//             });";
  "            ";
  "//             // Función para filtrar carpetas";
  "//             function filtrarCarpetas() {";
  "//                 var numeralSeleccionado = numeralField.val();";
  "                ";
  "//                 if (!numeralSeleccionado) {";
  "//                     // Si no hay numeral seleccionado, limpiar carpetas";
  "//                     carpetaField.html('<option value=" ++ dq ++ dq ++ ">---------</option>');";
  "//                     carpetaField.prop('disabled', true);";
  "//                     return;";
  "//                 }";
  "                ";
  "//                 // Habilitar el campo de carpetas";
  "//                 carpetaField.prop('disabled', false);";
  "                ";
  "//                 // Hacer petición AJAX para obtener carpetas del numeral";
  "//                 $.ajax({";
  "//                     url: '/admin/get-carpetas-por-numeral/',";
  "//                     data: {";
  "//                         'numeral_id': numeralSeleccionado,";
  "//                         'app': window.location.pathname.split('/')[2] // transparencia, comude, etc.";
  "//                     },";
  "//                     dataType: 'json',";
  "//                     success: function(data) {";
  "//                         // Limpiar opciones actuales";
  "//                         carpetaField.html('<option value=" ++ dq ++ dq ++ ">---------</option>');";
  "                        ";
  "//                         // Agregar las carpetas filtradas";
  "//                         $.each(data.carpetas, function(index, carpeta) {";
  "//                             carpetaField.append(";
  "//                                 $('<option></option>')";
  "//                                     .attr('value', carpeta.id)";
  "//                                     .text(carpeta.ruta_completa)";
  "//                             );";
  "//                         });";
  "                        ";
  "//                         // Si hay un valor previamente seleccionado, mantenerlo";
  "//                         var valorActual = carpetaField.attr('data-selected');";
  "//                         if (valorActual) {";
  "//                             carpetaField.val(valorActual);";
  "//                         }";
  "//                     },";
  "//                     error: function() {";
  "//                         console.error('Error al cargar las carpetas');";
  "//                     }";
  "//                 });";
  "//             }";
  "            ";
  "//             // Ejecutar al cambiar el numeral";
  "//             numeralField.on('change', filtrarCarpetas);";
  "            ";
  "//             // Ejecutar al cargar la página (para edición)";
  "//             if (numeralField.val()) {";
  "//                 filtrarCarpetas();";
  "//             } else {";
  "//                 carpetaField.prop('disabled', true);";
  "//             }";
  "//         }";
  "//     });";
  "// })(django.jQuery);"
]%string.

(** White space inside a line: tab, vertical tab, form feed, space. *)
Definition is_space (c : ascii) : bool :=
  match nat_of_ascii c with
  | 9 | 11 | 12 | 32 => true
  | _ => false
  end.

Fixpoint skip_spaces (s : string) : string :=
  match s with
  | EmptyString => EmptyString
  | String c rest => if is_space c then skip_spaces rest else s
  end.

Inductive line_kind := LineComment | Blank | Code.

(** A line that, after leading white space, opens with two slashes is a
    single-line comment up to its end; a line of white space alone is
    blank; anything else carries at least one token. *)
Definition classify (l : string) : line_kind :=
  match skip_spaces l with
  | EmptyString => Blank
  | String "/" (String "/" _) => LineComment
  | String _ _ => Code
  end.

Definition is_comment (l : string) : bool :=
  match classify l with LineComment => true | _ => false end.

Definition is_blank (l : string) : bool :=
  match classify l with Blank => true | _ => false end.

Definition is_code (l : string) : bool :=
  match classify l with Code => true | _ => false end.

(** The lines that reach the parser as program text. *)
Definition program_text : list string := filter is_code lines.

End Shipped.

(** ** The script on the page *)

(** Evaluating the file: the lines of program text in order.  The embedding
    interprets no statement form, so a line of program text is never skipped
    silently: it would surface as an uncaught error carrying the line.  The
    file has no such line, and evaluating it is evaluating nothing. *)
Definition script : js unit :=
  each Shipped.program_text (fun line => throw line).

(** The page once the document is ready and the file has been evaluated. *)
Definition boot (d : document) : page := run_handler script (fresh d).

(** ** Events *)

(** A parsed JSON response body. *)
#[warnings="-register-all"]
Inductive json :=
| JNull
| JBool (b : bool)
| JNumber (literal : string)
| JString (s : string)
| JArray (items : list json)
| JObject (members : list (string * json)).

Inductive event :=
| Change (v : string)            (* the user picks [v] in #id_numeral *)
| Success (k : nat) (body : json)  (* in-flight request [k] succeeds *)
| Error (k : nat).               (* in-flight request [k] fails *)

(** The code of a bound function; there is none to give. *)
Definition handler_code (h : handler) : js unit :=
  match h with end.

Definition remove_at {A} (k : nat) (l : list A) : list A :=
  firstn k l ++ skipn (S k) l.

Definition settle (k : nat) (p : page) : page :=
  with_network (sent p) (remove_at k (inflight p)) p.

(** One event.  A change moves the parent's value and runs the handlers bound
    to it; a response answers the request in flight at its position, if
    there is one, which then leaves the queue (the file registers no callback
    that would run on it). *)
Definition step (e : event) (p : page) : page :=
  match e with
  | Change v =>
      match numeral p with
      | None => p
      | Some n =>
          fold_left (fun q h => run_handler (handler_code h) q) (on_change n)
            (with_numeral (Some {| nval := v; on_change := on_change n |}) p)
      end
  | Success k _ =>
      match nth_error (inflight p) k with
      | None => p
      | Some _ => settle k p
      end
  | Error k =>
      match nth_error (inflight p) k with
      | None => p
      | Some _ => settle k p
      end
  end.

Definition run (evs : list event) (p : page) : page :=
  fold_left (fun q e => step e q) evs p.

(** The value the user picked last in the parent, starting from [v0]. *)
Fixpoint picked (evs : list event) (v0 : string) : string :=
  match evs with
  | [] => v0
  | Change v :: rest => picked rest v
  | _ :: rest => picked rest v0
  end.

(** ** Sample pages *)

(** The empty option the admin form renders first. *)
Definition placeholder : option_el :=
  {| value := ""; text := "---------"; data_numeral := None |}.

Definition old_option : option_el :=
  {| value := "7"; text := "3 / Contratos"; data_numeral := Some "3" |}.

(** A dependent select served enabled, with two options. *)
Definition sample_select : select_el :=
  {| options := [placeholder; old_option];
     disabled := false;
     data_selected := Some "12";
     selectedIndex := Some 0 |}.

Definition sample_doc (v : string) : document :=
  {| d_numeral := Some v;
     d_carpeta := Some sample_select;
     d_pathname := "/admin/transparencia/documento/add/" |}.

(** A dependent select served disabled. *)
Definition locked_select : select_el :=
  {| options := [placeholder];
     disabled := true;
     data_selected := None;
     selectedIndex := Some 0 |}.

Definition locked_doc (v : string) : document :=
  {| d_numeral := Some v;
     d_carpeta := Some locked_select;
     d_pathname := "/admin/comude/documento/add/" |}.

Definition no_carpeta_doc : document :=
  {| d_numeral := Some "5";
     d_carpeta := None;
     d_pathname := "/admin/transparencia/documento/add/" |}.

(** * Proof support *)

Lemma program_text_empty : Shipped.program_text = [].
Proof. vm_compute. reflexivity. Qed.

(** Evaluating the file leaves the served page as it is. *)
Lemma boot_served (d : document) : boot d = fresh d.
Proof. unfold boot, script. rewrite program_text_empty. reflexivity. Qed.

Lemma boot_absent (d : document) :
  d_numeral d = None \/ d_carpeta d = None -> boot d = fresh d.
Proof. intros _. apply boot_served. Qed.

(** On a page where nothing is bound and nothing is in flight, events only
    ever move the parent's own value. *)
Lemma run_unwired (d : document) (evs : list event) :
  forall ov : option string,
    run evs (with_numeral (option_map bare ov) (fresh d)) =
    with_numeral (option_map (fun v => bare (picked evs v)) ov) (fresh d).
Proof.
  induction evs as [|e evs IH]; intros ov.
  - destruct ov; reflexivity.
  - change (run (e :: evs) ?q) with (run evs (step e q)).
    destruct e as [v | k dd | k].
    + destruct ov as [v0|].
      * change (step (Change v) (with_numeral (option_map bare (Some v0)) (fresh d)))
          with (with_numeral (option_map bare (Some v)) (fresh d)).
        rewrite IH. reflexivity.
      * change (step (Change v) (with_numeral (option_map bare None) (fresh d)))
          with (with_numeral (option_map bare None) (fresh d)).
        rewrite IH. reflexivity.
    + replace (step (Success k dd) (with_numeral (option_map bare ov) (fresh d)))
        with (with_numeral (option_map bare ov) (fresh d)).
      * rewrite IH. destruct ov; reflexivity.
      * unfold step. cbn [inflight with_numeral fresh]. destruct k; reflexivity.
    + replace (step (Error k) (with_numeral (option_map bare ov) (fresh d)))
        with (with_numeral (option_map bare ov) (fresh d)).
      * rewrite IH. destruct ov; reflexivity.
      * unfold step. cbn [inflight with_numeral fresh]. destruct k; reflexivity.
Qed.


(** The page after any event sequence: the served page with the parent's
    value moved to the one picked last. *)
Lemma run_boot_served (d : document) (evs : list event) :
  run evs (boot d) =
    with_numeral (option_map (fun v => bare (picked evs v)) (d_numeral d)) (fresh d).
Proof. rewrite boot_served. exact (run_unwired d evs (d_numeral d)). Qed.

(** One more change on such a page. *)
Lemma step_change_served (d : document) (evs : list event) (v : string) :
  step (Change v) (run evs (boot d)) =
    with_numeral (option_map (fun _ => bare v) (d_numeral d)) (fresh d).
Proof.
  rewrite run_boot_served. destruct (d_numeral d) as [v0|]; reflexivity.
Qed.


Lemma length_split (sep : ascii) (s : string) :
  length (split sep s) = S (count_char sep s).
Proof.
  induction s as [|a s IH]; [reflexivity|].
  cbn [split count_char]. destruct (Ascii.eqb a sep).
  - cbn. rewrite IH. reflexivity.
  - destruct (split sep s) as [|seg segs]; [discriminate IH|]. exact IH.
Qed.

Lemma split_segments_clean (sep : ascii) (s : string) :
  Forall (fun seg => count_char sep seg = 0) (split sep s).
Proof.
  induction s as [|a s IH]; [constructor; [reflexivity | constructor]|].
  cbn [split]. destruct (Ascii.eqb a sep) eqn:E.
  - constructor; [reflexivity | exact IH].
  - destruct (split sep s) as [|seg segs].
    + constructor; [cbn; rewrite E; reflexivity | constructor].
    + inversion IH as [|x l Hx Hl]; subst.
      constructor; [cbn; rewrite E; exact Hx | exact Hl].
Qed.

(** * Properties of the shipped file and of the page it is loaded on *)

(** C9, as stated, fails: line 3 of the file is four spaces, which is not a
    comment; so not every line of the file is a comment. *)
Lemma shipped_line_3_is_blank_not_comment :
  nth_error Shipped.lines 2 = Some "    " /\
  Shipped.classify "    " = Shipped.Blank /\
  forallb Shipped.is_comment Shipped.lines = false.
Proof. repeat split. Qed.

(** C9, amended.  Every one of the 81 lines of the file is either a line
    comment (70 lines) or white space only (11 lines); no line carries a
    token, so no program text reaches the parser and the script as shipped
    executes no logic. *)
Theorem shipped_file_is_comments_and_blanks :
  length Shipped.lines = 81 /\
  forallb (fun l => Shipped.is_comment l || Shipped.is_blank l) Shipped.lines = true /\
  length (filter Shipped.is_comment Shipped.lines) = 70 /\
  length (filter Shipped.is_blank Shipped.lines) = 11 /\
  Forall (fun l => Shipped.classify l <> Shipped.Code) Shipped.lines /\
  Shipped.program_text = [].
Proof.
  split; [reflexivity|]. split; [vm_compute; reflexivity|].
  split; [vm_compute; reflexivity|]. split; [vm_compute; reflexivity|].
  split; [|vm_compute; reflexivity].
  apply Forall_forall. intros l Hl.
  assert (H : forallb (fun l => Shipped.is_comment l || Shipped.is_blank l)
                      Shipped.lines = true) by (vm_compute; reflexivity).
  rewrite forallb_forall in H. specialize (H l Hl).
  unfold Shipped.is_comment, Shipped.is_blank in H.
  destruct (Shipped.classify l); [discriminate | discriminate | discriminate H].
Qed.

(** C10. If the parent control or the dependent control is absent from the
    page, the script does nothing, at load and for every later event: the
    page after any event sequence is the served page with at most the
    parent's own value moved by the user; nothing is saved, no change handler
    is bound, no request is issued, the dependent control and the console are
    as served, and no exception is raised. *)
Theorem absent_control_makes_script_inert (d : document) (evs : list event) :
  d_numeral d = None \/ d_carpeta d = None ->
  boot d = fresh d /\
  run evs (boot d) =
    with_numeral (option_map (fun v => bare (picked evs v)) (d_numeral d)) (fresh d) /\
  saved (run evs (boot d)) = None /\
  (forall n, numeral (run evs (boot d)) = Some n -> on_change n = []) /\
  sent (run evs (boot d)) = [] /\
  inflight (run evs (boot d)) = [] /\
  carpeta (run evs (boot d)) = d_carpeta d /\
  console (run evs (boot d)) = [] /\
  uncaught (run evs (boot d)) = [].
Proof.
  intros H. pose proof (boot_absent d H) as Hb. split; [exact Hb|].
  assert (Hr : run evs (boot d) =
               with_numeral (option_map (fun v => bare (picked evs v)) (d_numeral d))
                            (fresh d)).
  { rewrite Hb. exact (run_unwired d evs (d_numeral d)). }
  split; [exact Hr|]. rewrite Hr. cbn.
  repeat split.
  intros n Hn. destruct (d_numeral d); [|discriminate].
  cbn in Hn. injection Hn as <-. reflexivity.
Qed.

Lemma absent_control_makes_script_inert_witness :
  boot no_carpeta_doc = fresh no_carpeta_doc /\
  sent (run [Change "8"; Success 0 JNull; Error 0] (boot no_carpeta_doc)) = [] /\
  carpeta (run [Change "8"; Success 0 JNull; Error 0] (boot no_carpeta_doc)) = None.
Proof.
  destruct (absent_control_makes_script_inert no_carpeta_doc
              [Change "8"; Success 0 JNull; Error 0] (or_intror eq_refl))
    as (H1 & _ & _ & _ & H2 & _ & H3 & _).
  split; [exact H1|]. split; [exact H2 | exact H3].
Defined.



(** C4, as stated, fails.  On a page served with parent value 5 and an
    enabled dependent selector holding two options, a change of the parent to
    the empty value leaves both options in place and the selector enabled. *)
Lemma change_to_empty_keeps_served_selector :
  carpeta (step (Change "") (boot (sample_doc "5"))) = Some sample_select /\
  length (options sample_select) = 2 /\
  disabled sample_select = false /\
  ~ (exists c,
        carpeta (step (Change "") (boot (sample_doc "5"))) = Some c /\
        options c = [placeholder] /\ disabled c = true).
Proof.
  split; [reflexivity|]. split; [reflexivity|]. split; [reflexivity|].
  intros (c & Hc & Ho & _).
  change (Some sample_select = Some c) in Hc. injection Hc as <-. discriminate Ho.
Qed.

(** C4, amended.  For every parent value change to an empty value, at any
    point of any event sequence on any page, the dependent selector is left
    exactly as served (its options are not replaced and it is not disabled),
    and no network request is issued. *)
Theorem change_to_empty_leaves_selector_as_served (d : document) (evs : list event) :
  carpeta (step (Change "") (run evs (boot d))) = d_carpeta d /\
  numeral (step (Change "") (run evs (boot d))) =
    option_map (fun _ => bare "") (d_numeral d) /\
  sent (step (Change "") (run evs (boot d))) = [] /\
  inflight (step (Change "") (run evs (boot d))) = [].
Proof. rewrite step_change_served. repeat split. Qed.

(** C5, as stated, fails.  On a page served with an empty parent and a
    disabled dependent selector, a change of the parent to 5 leaves the
    selector disabled and issues no request at all. *)
Lemma change_to_nonempty_issues_no_fetch :
  carpeta (step (Change "5") (boot (locked_doc ""))) = Some locked_select /\
  disabled locked_select = true /\
  sent (step (Change "5") (boot (locked_doc ""))) = [] /\
  ~ (exists c r,
        carpeta (step (Change "5") (boot (locked_doc ""))) = Some c /\
        disabled c = false /\
        sent (step (Change "5") (boot (locked_doc ""))) = [r]).
Proof.
  split; [reflexivity|]. split; [reflexivity|]. split; [reflexivity|].
  intros (c & r & _ & _ & Hs).
  change (@nil ajax_request = [r]) in Hs. discriminate Hs.
Qed.

(** C5, amended.  For every parent value change to a non-empty value (indeed
    to any value), at any point of any event sequence on any page, the
    dependent selector keeps the enabled flag and the options it was served
    with, and no fetch is issued, to [/admin/get-carpetas-por-numeral/] or
    anywhere else: the request log and the in-flight queue stay empty. *)
Theorem change_of_parent_issues_no_fetch
        (d : document) (evs : list event) (v : string) :
  carpeta (step (Change v) (run evs (boot d))) = d_carpeta d /\
  numeral (step (Change v) (run evs (boot d))) =
    option_map (fun _ => bare v) (d_numeral d) /\
  sent (step (Change v) (run evs (boot d))) = [] /\
  inflight (step (Change v) (run evs (boot d))) = [] /\
  Forall (fun r => url r <> "/admin/get-carpetas-por-numeral/")
         (sent (step (Change v) (run evs (boot d)))).
Proof.
  rewrite step_change_served. cbn.
  split; [reflexivity|]. split; [reflexivity|]. split; [reflexivity|].
  split; [reflexivity | constructor].
Qed.

(** C7, as stated, fails.  Loaded on a page whose parent already holds 5, the
    script issues no request and does not touch the dependent selector;
    loaded on a page whose parent is empty and whose dependent selector is
    served enabled, it leaves the selector enabled. *)
Lemma page_load_performs_nothing :
  sent (boot (sample_doc "5")) = [] /\
  carpeta (boot (locked_doc "5")) = Some locked_select /\
  disabled locked_select = true /\
  carpeta (boot (sample_doc "")) = Some sample_select /\
  disabled sample_select = false /\
  ~ (exists r, sent (boot (sample_doc "5")) = [r]) /\
  ~ (exists c, carpeta (boot (locked_doc "5")) = Some c /\ disabled c = false) /\
  ~ (exists c, carpeta (boot (sample_doc "")) = Some c /\ disabled c = true).
Proof.
  split; [reflexivity|]. split; [reflexivity|]. split; [reflexivity|].
  split; [reflexivity|]. split; [reflexivity|]. split; [|split].
  - intros (r & Hs). change (@nil ajax_request = [r]) in Hs. discriminate Hs.
  - intros (c & Hc & Hd).
    change (Some locked_select = Some c) in Hc. injection Hc as <-. discriminate Hd.
  - intros (c & Hc & Hd).
    change (Some sample_select = Some c) in Hc. injection Hc as <-. discriminate Hd.
Qed.

(** C7, amended.  On initial page load the script performs nothing, whatever
    the parent's value: the page is exactly the served one, so no
    enable-fetch-populate sequence is run when the parent has a value, the
    dependent selector is left as served (disabled only if it was served
    disabled) when the parent is empty, and in both cases nothing is saved,
    no handler is bound and no fetch is issued. *)
Theorem page_load_leaves_page_as_served (d : document) :
  boot d = fresh d /\
  carpeta (boot d) = d_carpeta d /\
  numeral (boot d) = option_map bare (d_numeral d) /\
  saved (boot d) = None /\
  sent (boot d) = [] /\
  inflight (boot d) = [] /\
  console (boot d) = [] /\
  uncaught (boot d) = [].
Proof. rewrite boot_served. repeat split. Qed.

(** C8, as stated, fails.  On a page served with an empty parent and an
    enabled dependent selector, the selector is enabled although the parent's
    value is empty, after page load and still after the parent has been
    changed to 5 and back to the empty value. *)
Lemma enabled_with_empty_parent :
  ~ (exists n c,
        numeral (boot (sample_doc "")) = Some n /\
        carpeta (boot (sample_doc "")) = Some c /\
        (disabled c = true <-> nval n = "")) /\
  ~ (exists n c,
        numeral (run [Change "5"; Change ""] (boot (sample_doc ""))) = Some n /\
        carpeta (run [Change "5"; Change ""] (boot (sample_doc ""))) = Some c /\
        (disabled c = true <-> nval n = "")).
Proof.
  split.
  - intros (n & c & Hn & Hc & Hiff).
    change (Some (bare "") = Some n) in Hn. injection Hn as <-.
    change (Some sample_select = Some c) in Hc. injection Hc as <-.
    destruct Hiff as [_ H]. specialize (H eq_refl). discriminate H.
  - intros (n & c & Hn & Hc & Hiff).
    change (Some (bare "") = Some n) in Hn. injection Hn as <-.
    change (Some sample_select = Some c) in Hc. injection Hc as <-.
    destruct Hiff as [_ H]. specialize (H eq_refl). discriminate H.
Qed.

(** C8, amended.  After the page-load initialisation and after every later
    event (in particular after every parent value change), the dependent
    selector's disabled flag is the one the page was served with, whatever
    the parent's value, which is the one the user picked last. *)
Theorem disabled_flag_always_as_served (d : document) (evs : list event) :
  option_map disabled (carpeta (run evs (boot d))) =
    option_map disabled (d_carpeta d) /\
  option_map nval (numeral (run evs (boot d))) =
    option_map (picked evs) (d_numeral d).
Proof.
  rewrite run_boot_served. cbn. split; [reflexivity|].
  destruct (d_numeral d); reflexivity.
Qed.

(** X11. The context tag read from the path is undefined exactly when the
    path holds fewer than two slashes; when it is defined it never contains a
    slash. *)
Theorem context_tag_defined_iff_two_slashes (path : string) :
  (app_tag path = None <-> count_char "/" path < 2) /\
  (forall t, app_tag path = Some t -> count_char "/" t = 0).
Proof.
  unfold app_tag. split.
  - rewrite nth_error_None, length_split. lia.
  - intros t Ht. apply nth_error_In in Ht.
    pose proof (split_segments_clean "/" path) as H.
    rewrite Forall_forall in H. exact (H t Ht).
Qed.

(** X13. On every page, with or without the two controls, the script does
    nothing at load and nothing on any later event: after any event sequence
    the page is the served one with at most the parent's own value moved by
    the user; nothing is saved, no handler is bound, no request is issued or
    pending, the dependent control and the console are as served, and no
    exception is raised. *)
Theorem script_is_inert_on_every_page (d : document) (evs : list event) :
  boot d = fresh d /\
  run evs (boot d) =
    with_numeral (option_map (fun v => bare (picked evs v)) (d_numeral d)) (fresh d) /\
  saved (run evs (boot d)) = None /\
  (forall n, numeral (run evs (boot d)) = Some n -> on_change n = []) /\
  sent (run evs (boot d)) = [] /\
  inflight (run evs (boot d)) = [] /\
  carpeta (run evs (boot d)) = d_carpeta d /\
  console (run evs (boot d)) = [] /\
  uncaught (run evs (boot d)) = [].
Proof.
  split; [apply boot_served|].
  pose proof (run_boot_served d evs) as Hr.
  split; [exact Hr|]. rewrite Hr. cbn.
  repeat split.
  intros n Hn. destruct (d_numeral d); [|discriminate].
  cbn in Hn. injection Hn as <-. reflexivity.
Qed.
